(** * Task21: gas-level monitor (ESP32-C3 sketch [Task21.ino])

    A shallow embedding of the sketch's three loop phases [updateState],
    [display] and [buzzerHandler], and of the loop body of [task], followed
    by the properties of the filter, the classifier, the buzzer waveform and
    the settings menu.

    Numbers are [Z]; every conversion to a narrower C type is written out
    ([to_uint8], [to_uint16], [to_int8], [to_uint32]).  Arithmetic on [int]
    (32 bits on this target) is exact on the 16-bit operands the sketch
    feeds it, so it is plain [Z] arithmetic, with [Z.quot] and [Z.rem] for
    the truncating division and remainder of C. *)

From Stdlib Require Import String ZArith Lia List Bool.
Import ListNotations.
Local Open Scope Z_scope.

(** ** Machine integers *)

Definition to_uint8 (x : Z) : Z := x mod 2 ^ 8.
Definition to_uint16 (x : Z) : Z := x mod 2 ^ 16.
Definition to_uint32 (x : Z) : Z := x mod 2 ^ 32.
Definition to_int8 (x : Z) : Z := (x + 2 ^ 7) mod 2 ^ 8 - 2 ^ 7.

Definition is_uint16 (x : Z) : Prop := 0 <= x < 2 ^ 16.
Definition is_uint32 (x : Z) : Prop := 0 <= x < 2 ^ 32.

(** ** Pins *)

Definition ARGB_PIN : Z := 8.
Definition SENSOR_PIN : Z := 4.
Definition BUZZER_PIN : Z := 10.

(** ** Data *)

(** [typedef enum { Ok, Control, Critical } State;] *)
Inductive State : Type := Ok | Control | Critical.

Definition State_eqb (a b : State) : bool :=
  match a, b with
  | Ok, Ok | Control, Control | Critical, Critical => true
  | _, _ => false
  end.

(** [struct Setting], with its default member initialisers. *)
Record Setting : Type := mkSetting {
  buzzer_en : bool;
  medium_threshold : Z;          (* uint16_t *)
  high_threshold : Z;            (* uint16_t *)
  gradient_led_display : bool
}.

Definition default_setting : Setting :=
  {| buzzer_en := false;
     medium_threshold := 1000;
     high_threshold := 2000;
     gradient_led_display := false |}.

Definition Setting_wf (s : Setting) : Prop :=
  is_uint16 (medium_threshold s) /\ is_uint16 (high_threshold s).

(** One pixel of the LED strip: three bytes. *)
Record CRGB : Type := mkCRGB { red : Z; green : Z; blue : Z }.

(** The three-argument constructor [CRGB(r, g, b)] takes [uint8_t]s. *)
Definition CRGB_rgb (r g b : Z) : CRGB :=
  mkCRGB (to_uint8 r) (to_uint8 g) (to_uint8 b).

(** Modelled from the spec: the named colours [CRGB::Green],
    [CRGB::Yellow] and [CRGB::Red] are constants of the FastLED header, not
    of the sketch; the spec calls them green, yellow and red.  The bytes
    below are FastLED's (0x008000, 0xFFFF00, 0xFF0000); the properties only
    use which name is assigned.  [CRGB_Black] is the zeroed [leds[0]]. *)
Definition CRGB_Green : CRGB := mkCRGB 0 128 0.
Definition CRGB_Yellow : CRGB := mkCRGB 255 255 0.
Definition CRGB_Red : CRGB := mkCRGB 255 0 0.
Definition CRGB_Black : CRGB := mkCRGB 0 0 0.

Inductive Level : Type := LOW | HIGH.

(** [digitalWrite(pin, b)] with a [bool] argument: [true] is 1, i.e. HIGH. *)
Definition Level_of_bool (b : bool) : Level := if b then HIGH else LOW.

(** What the sketch asks of its collaborators, in program order. *)
Inductive Effect : Type :=
| FastLED_show (c : CRGB)
| oled_clear
| oled_setCursor (x y : Z)
| oled_print (s : string)
| oled_printf_s (fmt : string) (arg : string)
| oled_printf_d (fmt : string) (arg : Z)
| oled_update
| digitalWrite (pin : Z) (l : Level).

(** What the three buttons report after their [tick()] in one call of
    [display]. *)
Record Buttons : Type := mkButtons {
  ok_isClick : bool;
  right_isClick : bool;
  right_isStep : bool;
  left_isClick : bool;
  left_isStep : bool
}.

Definition no_buttons : Buttons := mkButtons false false false false false.

(** The file-scope variables [value], [state], [setting], [leds[0]] and the
    function-local statics [timer] (of [updateState]), [cursor] and
    [old_state] (of [display]). *)
Record Machine : Type := mkMachine {
  value : Z;                     (* uint16_t *)
  state : State;
  setting : Setting;
  leds0 : CRGB;
  timer : Z;                     (* static uint32_t, never assigned *)
  cursor : Z;                    (* static int8_t *)
  old_state : State
}.

(** All of them have static storage, so they start zeroed (the enum at its
    first constant), the settings at their member initialisers. *)
Definition power_on : Machine :=
  {| value := 0; state := Ok; setting := default_setting;
     leds0 := CRGB_Black; timer := 0; cursor := 0; old_state := Ok |}.

(** ** [updateState] *)

(** Modelled from the spec: Arduino's [map] belongs to the board's core
    library, not to the sketch.  The spec names "the standard linear-map
    formula", which on [long] operands is
    [(x - in_min) * (out_max - out_min) / (in_max - in_min) + out_min]
    with C's truncating division. *)
Definition map (x in_min in_max out_min out_max : Z) : Z :=
  Z.quot ((x - in_min) * (out_max - out_min)) (in_max - in_min) + out_min.

(** The low-pass filter line [value += (now_val - value) / 10;]: both
    operands are promoted to [int], the quotient truncates toward zero, and
    the sum is stored back into a [uint16_t]. *)
Definition low_pass (value now_val : Z) : Z :=
  to_uint16 (value + Z.quot (now_val - value) 10).

(** The [if / else if / else] chain of [updateState]: the new [state] and
    the colour written to [leds[0]]. *)
Definition classify (value : Z) (s : Setting) : State * CRGB :=
  if value <? medium_threshold s then (Ok, CRGB_Green)
  else if value <? high_threshold s then
    (Control,
     if gradient_led_display s then
       let color :=
         to_uint8 (map value (medium_threshold s) (high_threshold s) 0 255) in
       CRGB_rgb color (255 - color) 0
     else CRGB_Yellow)
  else (Critical, CRGB_Red).

(** [millis] is what [millis()] returns at the gate, [sample] what
    [analogRead(SENSOR_PIN)] returns when the gate lets the body run. *)
Definition updateState (millis sample : Z) (m : Machine)
  : Machine * list Effect :=
  if 5 <? to_uint32 (millis - timer m) then
    let now_val := to_uint16 sample in
    let value' := low_pass (value m) now_val in
    let '(state', led) := classify value' (setting m) in
    (mkMachine value' state' (setting m) led
               (timer m) (cursor m) (old_state m),
     [FastLED_show led])
  else (m, []).

(** ** [display] *)

(** The [switch (cursor)] that applies a nonzero [step]. *)
Definition apply_step (cursor step : Z) (s : Setting) : Setting :=
  if cursor =? 0 then
    mkSetting (0 <? step) (medium_threshold s) (high_threshold s)
              (gradient_led_display s)
  else if cursor =? 1 then
    mkSetting (buzzer_en s) (to_uint16 (medium_threshold s + step))
              (high_threshold s) (gradient_led_display s)
  else if cursor =? 2 then
    mkSetting (buzzer_en s) (medium_threshold s)
              (to_uint16 (high_threshold s + step)) (gradient_led_display s)
  else if cursor =? 3 then
    mkSetting (buzzer_en s) (medium_threshold s) (high_threshold s)
              (0 <? step)
  else s.

(** The four button tests that accumulate [int8_t step]. *)
Definition net_step (b : Buttons) : Z :=
  let step := 0 in
  let step := if right_isClick b then to_int8 (step + 10) else step in
  let step := if right_isStep b then to_int8 (step + 100) else step in
  let step := if left_isClick b then to_int8 (step - 10) else step in
  let step := if left_isStep b then to_int8 (step - 100) else step in
  step.

(** [if (ok_btn.isClick()) cursor = (cursor + 1) % 4;] *)
Definition next_cursor (b : Buttons) (cursor : Z) : Z :=
  if ok_isClick b then to_int8 (Z.rem (cursor + 1) 4) else cursor.

Definition on_off (b : bool) : string := if b then "вкл" else "выкл".

(** The body of [if (update_flag) { ... }]. *)
Definition render (st : State) (cursor : Z) (s : Setting) : list Effect :=
  [oled_clear]
  ++ match st with
     | Ok => [oled_setCursor 0 0; oled_print "Всё хорошо"]
     | Control => [oled_setCursor 0 0; oled_print "Осторожно"]
     | Critical => [oled_setCursor 0 0; oled_print "Опасно"]
     end
  ++ [oled_setCursor 0 (cursor + 1);
      oled_print ">";
      oled_setCursor 8 1;
      oled_printf_s "Пищалка : %s" (on_off (buzzer_en s));
      oled_setCursor 8 2;
      oled_printf_d "Порог 1 : %04d" (medium_threshold s);
      oled_setCursor 8 3;
      oled_printf_d "Порог 2 : %04d" (high_threshold s);
      oled_setCursor 8 4;
      oled_printf_s "Градиент: %s" (on_off (gradient_led_display s));
      oled_update].

Definition display (b : Buttons) (m : Machine) : Machine * list Effect :=
  let update_flag := true in                       (* bool update_flag = 1; *)
  let '(old_state', update_flag) :=
    if State_eqb (old_state m) (state m) then (old_state m, update_flag)
    else (state m, true) in
  let cursor' := next_cursor b (cursor m) in
  let step := net_step b in
  let '(setting', update_flag) :=
    if step =? 0 then (setting m, update_flag)
    else (apply_step cursor' step (setting m), true) in
  (mkMachine (value m) (state m) setting' (leds0 m)
             (timer m) cursor' old_state',
   if update_flag : bool then render (state m) cursor' setting' else []).

(** ** [buzzerHandler] *)

(** [millis] is what [millis()] returns; it is read only when the buzzer is
    enabled. *)
Definition buzzerHandler (millis : Z) (m : Machine) : list Effect :=
  if negb (buzzer_en (setting m)) then [digitalWrite BUZZER_PIN LOW]
  else
    let time := to_uint32 millis in
    match state m with
    | Ok => [digitalWrite BUZZER_PIN LOW]
    | Control =>
        let time := time mod 500 in
        [digitalWrite BUZZER_PIN (Level_of_bool (time <? 50))]
    | Critical =>
        let time := time mod 100 in
        [digitalWrite BUZZER_PIN (Level_of_bool (time <? 50))]
    end.

(** ** The loop body of [task] *)

Record Inputs : Type := mkInputs {
  millis_update : Z;             (* millis() inside updateState *)
  sample : Z;                    (* analogRead(SENSOR_PIN) *)
  buttons : Buttons;
  millis_buzzer : Z              (* millis() inside buzzerHandler *)
}.

Definition task_iteration (i : Inputs) (m : Machine)
  : Machine * list Effect :=
  let '(m1, e1) := updateState (millis_update i) (sample i) m in
  let '(m2, e2) := display (buttons i) m1 in
  (m2, e1 ++ e2 ++ buzzerHandler (millis_buzzer i) m2).

(** Successive calls of [updateState] that all read the same sample, at the
    given clock readings. *)
Fixpoint filter_ticks (times : list Z) (sample : Z) (m : Machine) : Machine :=
  match times with
  | [] => m
  | t :: times' => filter_ticks times' sample (fst (updateState t sample m))
  end.

(** ** Auxiliary notions for the statements *)

(** The gate of [updateState] lets the body run at clock reading [t]. *)
Definition gate_open (m : Machine) (t : Z) : Prop :=
  5 < to_uint32 (t - timer m).

(** The state and the colour are those of the current smoothed value. *)
Definition classified (m : Machine) : Prop :=
  state m = fst (classify (value m) (setting m)) /\
  leds0 m = snd (classify (value m) (setting m)).

(** The smoothed value after [n] updates that all read 500. *)
Definition settle (n : nat) (s : Z) : Z :=
  Nat.iter n (fun s => low_pass s 500) s.

(** The spec's wording of the channel: the line through [(m, 0)] and
    [(h, 255)], rounded down. *)
Definition gradient_channel (v m h : Z) : Z := (v - m) * 255 / (h - m).

(** The spec's wording of the net delta: each event adds its own share. *)
Definition delta_sum (b : Buttons) : Z :=
  (if right_isClick b then 10 else 0) + (if right_isStep b then 100 else 0)
  + (if left_isClick b then -10 else 0) + (if left_isStep b then -100 else 0).

(** ** Runs of the loop *)

(** The first iterations of [for (;;) { updateState(); display();
    buzzerHandler(); }], one per element of [ins], with everything the
    sketch asked of its collaborators on the way. *)
Fixpoint task_run (ins : list Inputs) (m : Machine) : Machine * list Effect :=
  match ins with
  | [] => (m, [])
  | i :: ins' =>
      let '(m1, e1) := task_iteration i m in
      let '(m2, e2) := task_run ins' m1 in
      (m2, e1 ++ e2)
  end.

(** Successive calls of [display]. *)
Fixpoint display_run (bs : list Buttons) (m : Machine) : Machine :=
  match bs with
  | [] => m
  | b :: bs' => display_run bs' (fst (display b m))
  end.

(** The variables are in the range of their C types, the cursor on one
    of the four rows. *)
Definition well_formed (m : Machine) : Prop :=
  is_uint16 (value m) /\ Setting_wf (setting m) /\ 0 <= cursor m < 4.

(** The enumerators of [State] as the integers C gives them. *)
Definition State_rank (s : State) : Z :=
  match s with Ok => 0 | Control => 1 | Critical => 2 end.

(** The same events on the opposite button, and no confirm click. *)
Definition mirror (b : Buttons) : Buttons :=
  mkButtons false (left_isClick b) (left_isStep b)
            (right_isClick b) (right_isStep b).

(** Whether a call of [buzzerHandler] that reads the clock at [now] writes
    HIGH. *)
Definition buzzer_high (m : Machine) (now : Z) : bool :=
  match buzzerHandler now m with
  | [digitalWrite _ HIGH] => true
  | _ => false
  end.

(** How many of the [n] clock readings from [start] on satisfy [p]. *)
Fixpoint count_from (p : Z -> bool) (start : Z) (n : nat) : nat :=
  match n with
  | O => O
  | S n' =>
      ((if p start then 1 else 0) + count_from p (start + 1)%Z n')%nat
  end.

(** At how many of the [n] consecutive clock readings from [start] on a
    call of [buzzerHandler] writes HIGH, state and settings staying as in
    [m]. *)
Definition high_calls (m : Machine) (start : Z) (n : nat) : nat :=
  count_from (buzzer_high m) start n.

(** * Properties *)

(** ** Conversions *)

Lemma to_uint16_id (x : Z) : is_uint16 x -> to_uint16 x = x.
Proof. unfold is_uint16, to_uint16. intros H. apply Z.mod_small. exact H. Qed.

Lemma to_uint16_range (x : Z) : is_uint16 (to_uint16 x).
Proof. unfold is_uint16, to_uint16. apply Z.mod_pos_bound. reflexivity. Qed.

Lemma to_uint32_id (x : Z) : is_uint32 x -> to_uint32 x = x.
Proof. unfold is_uint32, to_uint32. intros H. apply Z.mod_small. exact H. Qed.

Lemma to_uint8_id (x : Z) : 0 <= x < 256 -> to_uint8 x = x.
Proof. unfold to_uint8. intros H. apply Z.mod_small. exact H. Qed.

Lemma State_eqb_eq (a b : State) : State_eqb a b = true <-> a = b.
Proof. destruct a, b; simpl; split; congruence. Qed.

(** ** The filter *)

(** Truncating division by ten moves toward zero and never past the
    dividend. *)
Lemma quot10_bounds (d : Z) :
  (0 <= d -> 0 <= Z.quot d 10 <= d) /\ (d <= 0 -> d <= Z.quot d 10 <= 0).
Proof.
  pose proof (Z.quot_rem' d 10) as E.
  split; intros Hd.
  - pose proof (Z.rem_bound_pos d 10 Hd eq_refl). lia.
  - pose proof (Z.rem_bound_pos_neg d 10 eq_refl Hd). lia.
Qed.

Lemma low_pass_exact (s r : Z) :
  is_uint16 s -> is_uint16 r -> low_pass s r = s + Z.quot (r - s) 10.
Proof.
  intros Hs Hr. unfold low_pass. apply to_uint16_id.
  unfold is_uint16 in *.
  destruct (quot10_bounds (r - s)) as [Hp Hn].
  destruct (Z_le_gt_dec s r); [specialize (Hp ltac:(lia)) | specialize (Hn ltac:(lia))]; lia.
Qed.

(** What a call of [updateState] does when its gate is open. *)
Lemma updateState_open (t a : Z) (m : Machine) :
  5 < to_uint32 (t - timer m) ->
  let v := low_pass (value m) (to_uint16 a) in
  updateState t a m =
  (mkMachine v (fst (classify v (setting m))) (setting m)
             (snd (classify v (setting m)))
             (timer m) (cursor m) (old_state m),
   [FastLED_show (snd (classify v (setting m)))]).
Proof.
  intros H v. unfold updateState.
  apply Z.ltb_lt in H. rewrite H. fold v.
  destruct (classify v (setting m)); reflexivity.
Qed.

(** ... and when it is shut. *)
Lemma updateState_shut (t a : Z) (m : Machine) :
  to_uint32 (t - timer m) <= 5 -> updateState t a m = (m, []).
Proof.
  intros H. unfold updateState.
  apply Z.ltb_ge in H. rewrite H. reflexivity.
Qed.

(** C6: one filter update [s + (r - s) / 10], with truncating division,
    leaves the smoothed value between the previous smoothed value [s] and
    the raw sample [r], both ends included. *)
Theorem low_pass_between (s r : Z) :
  is_uint16 s -> is_uint16 r ->
  low_pass s r = s + Z.quot (r - s) 10 /\
  Z.min s r <= low_pass s r <= Z.max s r.
Proof.
  intros Hs Hr. split; [apply low_pass_exact; assumption|].
  rewrite low_pass_exact by assumption.
  destruct (quot10_bounds (r - s)) as [Hp Hn].
  destruct (Z_le_gt_dec s r) as [L | G].
  - specialize (Hp ltac:(lia)). lia.
  - specialize (Hn ltac:(lia)). lia.
Qed.

Lemma low_pass_between_witness :
  low_pass 1000 0 = 1000 + Z.quot (0 - 1000) 10 /\
  Z.min 1000 0 <= low_pass 1000 0 <= Z.max 1000 0.
Proof. apply (low_pass_between 1000 0); unfold is_uint16; lia. Defined.

(** ** The classifier *)

Lemma classify_cases (v : Z) (s : Setting) :
  (v < medium_threshold s /\ classify v s = (Ok, CRGB_Green)) \/
  (medium_threshold s <= v < high_threshold s /\
   fst (classify v s) = Control) \/
  (medium_threshold s <= v /\ high_threshold s <= v /\
   classify v s = (Critical, CRGB_Red)).
Proof.
  unfold classify.
  destruct (Z.ltb_spec v (medium_threshold s)) as [A | A].
  - left. auto.
  - destruct (Z.ltb_spec v (high_threshold s)) as [B | B].
    + right; left. simpl. auto.
    + right; right. auto.
Qed.

(** C1: with thresholds [m < h], the classifier yields [Ok] exactly when
    [v < m], [Control] exactly when [m <= v < h], and [Critical] exactly
    when [v >= h]. *)
Theorem classify_iff (v : Z) (s : Setting) :
  medium_threshold s < high_threshold s ->
  (fst (classify v s) = Ok <-> v < medium_threshold s) /\
  (fst (classify v s) = Control <->
     medium_threshold s <= v < high_threshold s) /\
  (fst (classify v s) = Critical <-> v >= high_threshold s).
Proof.
  intros Hmh.
  destruct (classify_cases v s) as [[A E] | [[A E] | [A [B E]]]];
    rewrite E; simpl; repeat split; intros; try congruence; try lia.
Qed.

Lemma classify_iff_witness :
  (fst (classify 1500 default_setting) = Ok <-> 1500 < 1000) /\
  (fst (classify 1500 default_setting) = Control <-> 1000 <= 1500 < 2000) /\
  (fst (classify 1500 default_setting) = Critical <-> 1500 >= 2000).
Proof. apply (classify_iff 1500 default_setting). simpl. lia. Defined.

(** C2, as stated, fails: with the smoothed value at 2500 and
    [high_threshold = 2000], a [medium_threshold] of 3000 makes the first
    test of the chain succeed, so the state is [Ok] and the colour green. *)
Lemma critical_2500_not_for_every_medium :
  let m := mkMachine 2500 Critical (mkSetting false 3000 2000 false)
                     CRGB_Red 0 0 Critical in
  classify 2500 (setting m) = (Ok, CRGB_Green) /\
  state (fst (updateState 6 2500 m)) = Ok /\
  leds0 (fst (updateState 6 2500 m)) = CRGB_Green /\
  ~ (forall medium : Z, is_uint16 medium ->
       classify 2500 (mkSetting false medium 2000 false)
       = (Critical, CRGB_Red)).
Proof.
  repeat split.
  intros H. specialize (H 3000 ltac:(unfold is_uint16; lia)). discriminate H.
Qed.

(** C2, amended: with the smoothed value at 2500 and
    [high_threshold = 2000], the classifier yields [Critical] and red
    exactly when [medium_threshold <= 2500]. *)
Theorem critical_2500_iff (s : Setting) :
  high_threshold s = 2000 ->
  (classify 2500 s = (Critical, CRGB_Red) <-> medium_threshold s <= 2500).
Proof.
  intros Hh.
  destruct (classify_cases 2500 s) as [[A E] | [[A E] | [A [B E]]]].
  - rewrite E. split; [discriminate | lia].
  - lia.
  - rewrite E. split; [lia | reflexivity].
Qed.

Lemma critical_2500_iff_witness :
  classify 2500 default_setting = (Critical, CRGB_Red) <-> 1000 <= 2500.
Proof. apply (critical_2500_iff default_setting). reflexivity. Defined.

(** When the thresholds are crossed the other way, 2500 is [Ok]. *)
Lemma ok_2500_above (s : Setting) :
  2500 < medium_threshold s -> classify 2500 s = (Ok, CRGB_Green).
Proof.
  intros H. unfold classify.
  apply Z.ltb_lt in H. rewrite H. reflexivity.
Qed.

(** ** The buzzer *)

Lemma Level_of_bool_HIGH (b : bool) : Level_of_bool b = HIGH <-> b = true.
Proof. destruct b; simpl; split; congruence. Qed.

(** C3: the buzzer pin is written once per call; with the buzzer enabled
    the level is HIGH exactly when [now mod 500 < 50] in state [Control]
    and exactly when [now mod 100 < 50] in state [Critical]; in state [Ok],
    or with the buzzer disabled, it is LOW. *)
Theorem buzzerHandler_level (now : Z) (m : Machine) :
  is_uint32 now ->
  exists l : Level,
    buzzerHandler now m = [digitalWrite BUZZER_PIN l] /\
    (buzzer_en (setting m) = true -> state m = Control ->
       (l = HIGH <-> now mod 500 < 50)) /\
    (buzzer_en (setting m) = true -> state m = Critical ->
       (l = HIGH <-> now mod 100 < 50)) /\
    (state m = Ok \/ buzzer_en (setting m) = false -> l = LOW).
Proof.
  intros Hnow. unfold buzzerHandler.
  rewrite (to_uint32_id now Hnow).
  destruct (buzzer_en (setting m)) eqn:En; simpl.
  - destruct (state m) eqn:St.
    + exists LOW. repeat split; intros; congruence.
    + exists (Level_of_bool (now mod 500 <? 50)).
      split; [reflexivity|]. split; [|split].
      * intros _ _. rewrite Level_of_bool_HIGH. apply Z.ltb_lt.
      * intros _ H. discriminate H.
      * intros [H | H]; discriminate H.
    + exists (Level_of_bool (now mod 100 <? 50)).
      split; [reflexivity|]. split; [|split].
      * intros _ H. discriminate H.
      * intros _ _. rewrite Level_of_bool_HIGH. apply Z.ltb_lt.
      * intros [H | H]; discriminate H.
  - exists LOW. repeat split; intros; congruence.
Qed.

Lemma buzzerHandler_level_witness :
  exists l : Level,
    buzzerHandler 1030
      (mkMachine 1500 Control (mkSetting true 1000 2000 false)
                 CRGB_Yellow 0 0 Control)
    = [digitalWrite BUZZER_PIN l] /\
    (true = true -> Control = Control -> (l = HIGH <-> 1030 mod 500 < 50)) /\
    (true = true -> Control = Critical -> (l = HIGH <-> 1030 mod 100 < 50)) /\
    (Control = Ok \/ true = false -> l = LOW).
Proof.
  apply (buzzerHandler_level 1030
           (mkMachine 1500 Control (mkSetting true 1000 2000 false)
                      CRGB_Yellow 0 0 Control)).
  unfold is_uint32. lia.
Defined.

(** With the buzzer disabled, or in state [Ok], the pin is driven LOW
    whatever the clock reads. *)
Lemma buzzerHandler_quiet (now : Z) (m : Machine) :
  state m = Ok \/ buzzer_en (setting m) = false ->
  buzzerHandler now m = [digitalWrite BUZZER_PIN LOW].
Proof.
  unfold buzzerHandler. intros [H | H]; rewrite H.
  - destruct (negb (buzzer_en (setting m))); reflexivity.
  - reflexivity.
Qed.

(** ** A constant sample *)

Lemma updateState_frame (t a : Z) (m : Machine) :
  let m' := fst (updateState t a m) in
  setting m' = setting m /\ timer m' = timer m /\
  cursor m' = cursor m /\ old_state m' = old_state m.
Proof.
  unfold updateState.
  destruct (5 <? to_uint32 (t - timer m)); [|simpl; auto].
  destruct (classify _ _); simpl; auto.
Qed.

Lemma updateState_classified (t a : Z) (m : Machine) :
  gate_open m t \/ classified m -> classified (fst (updateState t a m)).
Proof.
  destruct (Z_lt_le_dec 5 (to_uint32 (t - timer m))) as [O | C].
  - intros _. rewrite updateState_open by exact O.
    unfold classified; simpl. auto.
  - intros [O | K].
    + unfold gate_open in O. lia.
    + rewrite updateState_shut by exact C. exact K.
Qed.

Lemma filter_ticks_frame (times : list Z) (a : Z) :
  forall m : Machine,
    setting (filter_ticks times a m) = setting m /\
    timer (filter_ticks times a m) = timer m.
Proof.
  induction times as [| t times IH]; intros m; simpl; [auto|].
  destruct (IH (fst (updateState t a m))) as [E1 E2].
  destruct (updateState_frame t a m) as [F1 [F2 _]].
  rewrite E1, E2. auto.
Qed.

Lemma filter_ticks_value (times : list Z) (a : Z) :
  forall m : Machine,
    Forall (gate_open m) times ->
    value (filter_ticks times a m)
    = Nat.iter (length times) (fun s => low_pass s (to_uint16 a)) (value m).
Proof.
  induction times as [| t times IH]; intros m Hall; [reflexivity|].
  inversion Hall as [| ? ? Ht Hrest]; subst.
  cbn [filter_ticks length]. rewrite Nat.iter_succ_r.
  rewrite (updateState_open t a m Ht). cbn [fst].
  rewrite IH; [reflexivity|].
  revert Hrest. apply Forall_impl. intros u. unfold gate_open. simpl. auto.
Qed.

Lemma filter_ticks_classified (times : list Z) (a : Z) :
  forall m : Machine,
    classified m -> classified (filter_ticks times a m).
Proof.
  induction times as [| t times IH]; intros m K; simpl; [exact K|].
  apply IH. apply updateState_classified. right. exact K.
Qed.

Lemma filter_ticks_classified_open (times : list Z) (a : Z) (m : Machine) :
  times <> [] -> Forall (gate_open m) times ->
  classified (filter_ticks times a m).
Proof.
  destruct times as [| t times]; [congruence|]. intros _ Hall.
  inversion Hall; subst. simpl.
  apply filter_ticks_classified, updateState_classified. left. assumption.
Qed.

(** Below the sample the filter stalls as soon as the gap is under ten:
    from 491 on, the truncated quotient is zero. *)
Lemma low_pass_500_le_491 (s : Z) :
  0 <= s <= 491 -> s <= low_pass s 500 <= 491.
Proof.
  intros H.
  rewrite low_pass_exact by (unfold is_uint16; lia).
  pose proof (Z.quot_rem' (500 - s) 10).
  pose proof (Z.rem_bound_pos (500 - s) 10 ltac:(lia) eq_refl).
  lia.
Qed.

(** The values at which the filter rests under a constant sample of 500
    are exactly those within nine of it. *)
Lemma low_pass_500_fixed (s : Z) :
  is_uint16 s -> (low_pass s 500 = s <-> 491 <= s <= 509).
Proof.
  intros Hs.
  rewrite low_pass_exact by (assumption || (unfold is_uint16; lia)).
  pose proof (Z.quot_rem' (500 - s) 10).
  destruct (Z_le_gt_dec s 500).
  - pose proof (Z.rem_bound_pos (500 - s) 10 ltac:(lia) eq_refl). lia.
  - pose proof (Z.rem_bound_pos_neg (500 - s) 10 eq_refl ltac:(lia)). lia.
Qed.

Lemma settle_le_491 (n : nat) : 0 <= settle n 0 <= 491.
Proof.
  induction n as [| n IH]; [unfold settle; simpl; lia|].
  unfold settle in *. rewrite Nat.iter_succ.
  pose proof (low_pass_500_le_491 _ IH). lia.
Qed.

Lemma settle_43 : settle 43 0 = 491.
Proof. vm_compute. reflexivity. Qed.

Lemma settle_from_43 (n : nat) : (43 <= n)%nat -> settle n 0 = 491.
Proof.
  intros H. replace n with ((n - 43) + 43)%nat by lia.
  generalize (n - 43)%nat as k. intros k.
  induction k as [| k IH]; [exact settle_43|].
  unfold settle in *. cbn [Nat.add]. rewrite Nat.iter_succ, IH.
  reflexivity.
Qed.

Lemma filter_ticks_500_value (times : list Z) :
  Forall (gate_open power_on) times ->
  value (filter_ticks times 500 power_on) = settle (length times) 0.
Proof.
  intros Hall. rewrite filter_ticks_value by exact Hall. reflexivity.
Qed.

Lemma gate_open_repeat (n : nat) : Forall (gate_open power_on) (repeat 6 n).
Proof.
  apply Forall_forall. intros t Hin.
  apply repeat_spec in Hin. subst t. vm_compute. reflexivity.
Qed.

(** C5, as stated, fails: fed 500 at every filter tick from power-on, the
    smoothed value never exceeds 491, so it never rests at 500. *)
Lemma constant_500_never_settles_at_500 :
  (forall times : list Z,
     Forall (gate_open power_on) times ->
     value (filter_ticks times 500 power_on) <= 491) /\
  ~ (exists N : nat, forall times : list Z,
       Forall (gate_open power_on) times -> (N <= length times)%nat ->
       value (filter_ticks times 500 power_on) = 500).
Proof.
  assert (forall times : list Z,
            Forall (gate_open power_on) times ->
            value (filter_ticks times 500 power_on) <= 491) as Hle.
  { intros times Hall. rewrite filter_ticks_500_value by exact Hall.
    apply settle_le_491. }
  split; [exact Hle|].
  intros [N HN].
  specialize (HN (repeat 6 N) (gate_open_repeat N)).
  rewrite repeat_length in HN. specialize (HN (Nat.le_refl N)).
  specialize (Hle (repeat 6 N) (gate_open_repeat N)). lia.
Qed.

(** C5, amended: fed 500 at every filter tick from power-on, the smoothed
    value rests at 491 from the 43rd tick on (the truncated quotient is
    zero once the gap is under ten); with the default thresholds the state
    is then [Ok], the colour green and the buzzer pin LOW. *)
Theorem constant_500_settles_at_491 (times : list Z) :
  Forall (gate_open power_on) times -> (43 <= length times)%nat ->
  let m := filter_ticks times 500 power_on in
  value m = 491 /\ low_pass 491 500 = 491 /\
  setting m = default_setting /\
  state m = Ok /\ leds0 m = CRGB_Green /\
  forall now : Z, buzzerHandler now m = [digitalWrite BUZZER_PIN LOW].
Proof.
  intros Hall Hlen m.
  assert (value m = 491) as Hv.
  { unfold m. rewrite filter_ticks_500_value by exact Hall.
    apply settle_from_43. exact Hlen. }
  assert (setting m = default_setting) as Hs.
  { unfold m. apply (filter_ticks_frame times 500 power_on). }
  assert (classified m) as [Hst Hled].
  { unfold m. apply filter_ticks_classified_open; [|exact Hall].
    destruct times; [simpl in Hlen; lia | discriminate]. }
  rewrite Hv, Hs in Hst, Hled.
  repeat split; try assumption; try reflexivity.
  intros now. apply buzzerHandler_quiet. left. exact Hst.
Qed.

Lemma constant_500_settles_at_491_witness :
  let m := filter_ticks (repeat 6 43) 500 power_on in
  value m = 491 /\ low_pass 491 500 = 491 /\
  setting m = default_setting /\
  state m = Ok /\ leds0 m = CRGB_Green /\
  forall now : Z, buzzerHandler now m = [digitalWrite BUZZER_PIN LOW].
Proof.
  apply (constant_500_settles_at_491 (repeat 6 43)).
  - apply gate_open_repeat.
  - rewrite repeat_length. lia.
Defined.

(** ** The gradient *)

Lemma gradient_channel_floor (v m h : Z) :
  m < h ->
  (h - m) * gradient_channel v m h <= 255 * (v - m)
  < (h - m) * (gradient_channel v m h + 1).
Proof.
  intros Hmh. unfold gradient_channel.
  pose proof (Z.div_mod ((v - m) * 255) (h - m) ltac:(lia)).
  pose proof (Z.mod_pos_bound ((v - m) * 255) (h - m) ltac:(lia)).
  lia.
Qed.

Lemma gradient_channel_range (v m h : Z) :
  m <= v < h -> 0 <= gradient_channel v m h <= 254.
Proof.
  intros Hv.
  pose proof (gradient_channel_floor v m h ltac:(lia)).
  split; nia.
Qed.

Lemma gradient_channel_mono (v1 v2 m h : Z) :
  m < h -> v1 <= v2 -> gradient_channel v1 m h <= gradient_channel v2 m h.
Proof.
  intros Hmh Hv. unfold gradient_channel.
  apply Z.div_le_mono; lia.
Qed.

Lemma map_gradient (v m h : Z) :
  m <= v < h -> to_uint8 (map v m h 0 255) = gradient_channel v m h.
Proof.
  intros Hv. unfold map.
  rewrite Z.quot_div_nonneg by lia.
  rewrite Z.sub_0_r, Z.add_0_r.
  apply to_uint8_id.
  pose proof (gradient_channel_range v m h Hv).
  unfold gradient_channel in *. lia.
Qed.

Lemma classify_gradient (v : Z) (s : Setting) :
  gradient_led_display s = true ->
  medium_threshold s <= v < high_threshold s ->
  let c := gradient_channel v (medium_threshold s) (high_threshold s) in
  classify v s = (Control, mkCRGB c (255 - c) 0).
Proof.
  intros Hg Hv c. unfold classify.
  destruct (Z.ltb_spec v (medium_threshold s)); [lia|].
  destruct (Z.ltb_spec v (high_threshold s)); [|lia].
  rewrite Hg, map_gradient by exact Hv. fold c.
  pose proof (gradient_channel_range v _ _ Hv) as Hc. fold c in Hc.
  unfold CRGB_rgb.
  rewrite !to_uint8_id by lia. reflexivity.
Qed.

Lemma gradient_channel_last (m h : Z) :
  m < h -> (254 - gradient_channel (h - 1) m h) * (h - m) < 255.
Proof.
  intros Hmh.
  pose proof (gradient_channel_floor (h - 1) m h Hmh). nia.
Qed.

(** C7: with gradient mode on and thresholds [m < h], a smoothed value [v]
    in [[m, h)] is shown as [(c, 255 - c, 0)], where [c] is the line from 0
    at [m] to 255 at [h] rounded down; at [v = m] the colour is
    [(0, 255, 0)]; [c] never decreases as [v] grows; just below [h] the
    colour nears [(255, 0, 0)]: [c] falls short of 254 by less than
    [255 / (h - m)], and is 254 as soon as the thresholds are 255 apart.
    The thresholds are 16-bit, so the [long] product of [map] is exact. *)
Theorem gradient_color (s : Setting) :
  Setting_wf s ->
  gradient_led_display s = true ->
  medium_threshold s < high_threshold s ->
  let m := medium_threshold s in
  let h := high_threshold s in
  let c := fun v : Z => gradient_channel v m h in
  (forall v : Z, m <= v < h ->
     classify v s = (Control, mkCRGB (c v) (255 - c v) 0) /\
     0 <= c v <= 254 /\
     (h - m) * c v <= 255 * (v - m) < (h - m) * (c v + 1)) /\
  classify m s = (Control, mkCRGB 0 255 0) /\
  (forall v1 v2 : Z, m <= v1 -> v1 <= v2 -> v2 < h -> c v1 <= c v2) /\
  (254 - c (h - 1)) * (h - m) < 255 /\
  (255 <= h - m -> classify (h - 1) s = (Control, mkCRGB 254 1 0)).
Proof.
  intros _ Hg Hmh m h c.
  assert (forall v : Z, m <= v < h ->
            classify v s = (Control, mkCRGB (c v) (255 - c v) 0)) as Hcol.
  { intros v Hv. apply classify_gradient; assumption. }
  split; [|split; [|split; [|split]]].
  - intros v Hv. split; [apply Hcol; exact Hv|]. split.
    + apply gradient_channel_range. exact Hv.
    + apply gradient_channel_floor. exact Hmh.
  - rewrite Hcol by (unfold m, h; lia).
    unfold c, gradient_channel. rewrite Z.sub_diag. reflexivity.
  - intros v1 v2 _ H12 _. apply gradient_channel_mono; assumption.
  - apply gradient_channel_last. exact Hmh.
  - intros Hwide. rewrite Hcol by lia.
    pose proof (gradient_channel_last m h Hmh) as Hl.
    pose proof (gradient_channel_range (h - 1) m h ltac:(lia)) as Hr.
    assert (c (h - 1) = 254) as -> by (unfold c; nia).
    reflexivity.
Qed.

Lemma gradient_color_witness :
  let s := mkSetting false 1000 2000 true in
  let c := fun v : Z => gradient_channel v 1000 2000 in
  (forall v : Z, 1000 <= v < 2000 ->
     classify v s = (Control, mkCRGB (c v) (255 - c v) 0) /\
     0 <= c v <= 254 /\
     (2000 - 1000) * c v <= 255 * (v - 1000) < (2000 - 1000) * (c v + 1)) /\
  classify 1000 s = (Control, mkCRGB 0 255 0) /\
  (forall v1 v2 : Z, 1000 <= v1 -> v1 <= v2 -> v2 < 2000 -> c v1 <= c v2) /\
  (254 - c (2000 - 1)) * (2000 - 1000) < 255 /\
  (255 <= 2000 - 1000 -> classify (2000 - 1) s = (Control, mkCRGB 254 1 0)).
Proof.
  apply (gradient_color (mkSetting false 1000 2000 true)).
  - unfold Setting_wf, is_uint16. simpl. lia.
  - reflexivity.
  - simpl. lia.
Defined.

(** Half way between the default thresholds. *)
Example gradient_1500 :
  classify 1500 (mkSetting false 1000 2000 true)
  = (Control, mkCRGB 127 128 0).
Proof. reflexivity. Qed.

(** ** The menu *)

Lemma net_step_delta_sum (b : Buttons) : net_step b = delta_sum b.
Proof.
  destruct b as [o rc rs lc ls].
  destruct rc, rs, lc, ls; reflexivity.
Qed.

Lemma net_step_range (b : Buttons) : -110 <= net_step b <= 110.
Proof.
  rewrite net_step_delta_sum. unfold delta_sum.
  destruct (right_isClick b), (right_isStep b),
    (left_isClick b), (left_isStep b); lia.
Qed.

(** What [display] leaves in the machine. *)
Lemma display_machine (b : Buttons) (m : Machine) :
  fst (display b m)
  = mkMachine (value m) (state m)
      (if net_step b =? 0 then setting m
       else apply_step (next_cursor b (cursor m)) (net_step b) (setting m))
      (leds0 m) (timer m) (next_cursor b (cursor m))
      (if State_eqb (old_state m) (state m) then old_state m else state m).
Proof.
  unfold display.
  destruct (State_eqb (old_state m) (state m));
    destruct (net_step b =? 0); reflexivity.
Qed.


Lemma apply_step_cases (c d : Z) (s : Setting) :
  let s' := apply_step c d s in
  (c <> 0 -> buzzer_en s' = buzzer_en s) /\
  (c <> 1 -> medium_threshold s' = medium_threshold s) /\
  (c <> 2 -> high_threshold s' = high_threshold s) /\
  (c <> 3 -> gradient_led_display s' = gradient_led_display s).
Proof.
  unfold apply_step.
  destruct (Z.eqb_spec c 0); [simpl; repeat split; intros; lia || reflexivity|].
  destruct (Z.eqb_spec c 1); [simpl; repeat split; intros; lia || reflexivity|].
  destruct (Z.eqb_spec c 2); [simpl; repeat split; intros; lia || reflexivity|].
  destruct (Z.eqb_spec c 3); simpl; repeat split; intros; lia || reflexivity.
Qed.

(** C8: the net delta of one call is the sum of what each event
    contributes, a click 10 and a hold 100, signed by the button; with the
    cursor on 1 and the increase button reporting both a click and a hold
    (and nothing else), [medium_threshold] grows by 110, in [uint16_t]
    arithmetic. *)
Theorem click_and_hold_add_up (m : Machine) :
  is_uint16 (medium_threshold (setting m)) ->
  cursor m = 1 ->
  let s := setting m in
  let both := mkButtons false true true false false in
  (forall b : Buttons, net_step b = delta_sum b) /\
  net_step both = 110 /\
  setting (fst (display both m))
  = mkSetting (buzzer_en s) (to_uint16 (medium_threshold s + 110))
              (high_threshold s) (gradient_led_display s) /\
  (medium_threshold s + 110 < 2 ^ 16 ->
   medium_threshold (setting (fst (display both m)))
   = medium_threshold s + 110).
Proof.
  intros Hm Hc s both.
  assert (setting (fst (display both m))
          = mkSetting (buzzer_en s) (to_uint16 (medium_threshold s + 110))
                      (high_threshold s) (gradient_led_display s)) as E.
  { rewrite display_machine. cbn [setting]. unfold both.
    change (net_step (mkButtons false true true false false)) with 110.
    cbn [Z.eqb next_cursor ok_isClick]. rewrite Hc. reflexivity. }
  split; [exact net_step_delta_sum|].
  split; [reflexivity|]. split; [exact E|].
  intros Hfit. rewrite E. cbn [medium_threshold].
  apply to_uint16_id. unfold is_uint16 in *. fold s in Hm. lia.
Qed.

Lemma click_and_hold_add_up_witness :
  let s := default_setting in
  let both := mkButtons false true true false false in
  let m := mkMachine 0 Ok default_setting CRGB_Green 0 1 Ok in
  (forall b : Buttons, net_step b = delta_sum b) /\
  net_step both = 110 /\
  setting (fst (display both m))
  = mkSetting (buzzer_en s) (to_uint16 (medium_threshold s + 110))
              (high_threshold s) (gradient_led_display s) /\
  (medium_threshold s + 110 < 2 ^ 16 ->
   medium_threshold (setting (fst (display both m)))
   = medium_threshold s + 110).
Proof.
  apply (click_and_hold_add_up
           (mkMachine 0 Ok default_setting CRGB_Green 0 1 Ok)).
  - unfold is_uint16. simpl. lia.
  - reflexivity.
Defined.

Example click_and_hold_1000 :
  medium_threshold
    (setting (fst (display (mkButtons false true true false false)
                           (mkMachine 0 Ok default_setting
                                      CRGB_Green 0 1 Ok))))
  = 1110.
Proof. reflexivity. Qed.

(** C9: a nonzero net delta [d] applied with the cursor on 1 (on 2) stores
    [(old + d) mod 2^16] in [medium_threshold] (in [high_threshold]): the
    addition is done in [int] and stored back into a [uint16_t], so it
    wraps, also below zero.  The cursor that counts is the one the
    [switch] reads: the cursor the call was entered with when no confirm
    click fired, the next row when one did. *)
Theorem threshold_edit_wraps (b : Buttons) (m : Machine) :
  net_step b <> 0 ->
  let d := net_step b in
  let s := setting m in
  let s' := setting (fst (display b m)) in
  d = delta_sum b /\
  (ok_isClick b = false -> cursor m = 1 ->
   medium_threshold s' = (medium_threshold s + d) mod 2 ^ 16) /\
  (ok_isClick b = false -> cursor m = 2 ->
   high_threshold s' = (high_threshold s + d) mod 2 ^ 16) /\
  (ok_isClick b = true -> cursor m = 0 ->
   medium_threshold s' = (medium_threshold s + d) mod 2 ^ 16) /\
  (ok_isClick b = true -> cursor m = 1 ->
   high_threshold s' = (high_threshold s + d) mod 2 ^ 16) /\
  (next_cursor b (cursor m) = 1 ->
   medium_threshold s' = (medium_threshold s + d) mod 2 ^ 16) /\
  (next_cursor b (cursor m) = 2 ->
   high_threshold s' = (high_threshold s + d) mod 2 ^ 16).
Proof.
  intros Hd d s s'.
  assert (s' = apply_step (next_cursor b (cursor m)) d s) as E.
  { unfold s'. rewrite display_machine. cbn [setting].
    apply Z.eqb_neq in Hd. rewrite Hd. reflexivity. }
  rewrite E.
  split; [apply net_step_delta_sum|].
  unfold next_cursor.
  repeat split.
  - intros Hok Hc. rewrite Hok, Hc. reflexivity.
  - intros Hok Hc. rewrite Hok, Hc. reflexivity.
  - intros Hok Hc. rewrite Hok, Hc. reflexivity.
  - intros Hok Hc. rewrite Hok, Hc. reflexivity.
  - intros Hc. rewrite Hc. reflexivity.
  - intros Hc. rewrite Hc. reflexivity.
Qed.

Lemma threshold_edit_wraps_witness :
  let b := mkButtons false false false true false in
  let m := mkMachine 0 Ok (mkSetting false 5 2000 false) CRGB_Green 0 1 Ok in
  let d := net_step b in
  let s := setting m in
  let s' := setting (fst (display b m)) in
  d = delta_sum b /\
  (ok_isClick b = false -> cursor m = 1 ->
   medium_threshold s' = (medium_threshold s + d) mod 2 ^ 16) /\
  (ok_isClick b = false -> cursor m = 2 ->
   high_threshold s' = (high_threshold s + d) mod 2 ^ 16) /\
  (ok_isClick b = true -> cursor m = 0 ->
   medium_threshold s' = (medium_threshold s + d) mod 2 ^ 16) /\
  (ok_isClick b = true -> cursor m = 1 ->
   high_threshold s' = (high_threshold s + d) mod 2 ^ 16) /\
  (next_cursor b (cursor m) = 1 ->
   medium_threshold s' = (medium_threshold s + d) mod 2 ^ 16) /\
  (next_cursor b (cursor m) = 2 ->
   high_threshold s' = (high_threshold s + d) mod 2 ^ 16).
Proof.
  apply (threshold_edit_wraps
           (mkButtons false false false true false)
           (mkMachine 0 Ok (mkSetting false 5 2000 false)
                      CRGB_Green 0 1 Ok)).
  vm_compute. discriminate.
Defined.

(** A decrease click at 5 passes below zero and lands at 65531. *)
Example threshold_underflow :
  medium_threshold
    (setting (fst (display (mkButtons false false false true false)
                           (mkMachine 0 Ok (mkSetting false 5 2000 false)
                                      CRGB_Green 0 1 Ok))))
  = 65531.
Proof. reflexivity. Qed.

(** C10: one call of [display] changes at most one of the four settings
    fields, the one selected by the cursor as the [switch] reads it (the
    cursor of the previous call unless the confirm button was clicked), and
    none when the net delta is zero. *)
Theorem display_settings_frame (b : Buttons) (m : Machine) :
  let s := setting m in
  let m' := fst (display b m) in
  let s' := setting m' in
  (net_step b = 0 -> s' = s) /\
  (cursor m' <> 0 -> buzzer_en s' = buzzer_en s) /\
  (cursor m' <> 1 -> medium_threshold s' = medium_threshold s) /\
  (cursor m' <> 2 -> high_threshold s' = high_threshold s) /\
  (cursor m' <> 3 -> gradient_led_display s' = gradient_led_display s) /\
  (ok_isClick b = false -> cursor m' = cursor m) /\
  ((medium_threshold s' = medium_threshold s /\
    high_threshold s' = high_threshold s /\
    gradient_led_display s' = gradient_led_display s) \/
   (buzzer_en s' = buzzer_en s /\
    high_threshold s' = high_threshold s /\
    gradient_led_display s' = gradient_led_display s) \/
   (buzzer_en s' = buzzer_en s /\
    medium_threshold s' = medium_threshold s /\
    gradient_led_display s' = gradient_led_display s) \/
   (buzzer_en s' = buzzer_en s /\
    medium_threshold s' = medium_threshold s /\
    high_threshold s' = high_threshold s)).
Proof.
  intros s m' s'.
  assert ((cursor m' <> 0 -> buzzer_en s' = buzzer_en s) /\
          (cursor m' <> 1 -> medium_threshold s' = medium_threshold s) /\
          (cursor m' <> 2 -> high_threshold s' = high_threshold s) /\
          (cursor m' <> 3 ->
           gradient_led_display s' = gradient_led_display s))
    as [F0 [F1 [F2 F3]]].
  { unfold s', m'. rewrite display_machine. cbn [cursor setting].
    destruct (net_step b =? 0); [repeat split; reflexivity|].
    apply apply_step_cases. }
  split; [|split; [|split; [|split; [|split; [|split]]]]]; try assumption.
  - intros Hz. unfold s', m'. rewrite display_machine. cbn [setting].
    rewrite Hz. reflexivity.
  - intros Hok. unfold m'. rewrite display_machine. cbn [cursor].
    unfold next_cursor. rewrite Hok. reflexivity.
  - destruct (Z.eq_dec (cursor m') 0) as [E | N].
    + left. repeat split; [apply F1 | apply F2 | apply F3]; lia.
    + destruct (Z.eq_dec (cursor m') 1) as [E | N1].
      * right; left. repeat split; [apply F0 | apply F2 | apply F3]; lia.
      * destruct (Z.eq_dec (cursor m') 2) as [E | N2].
        -- right; right; left.
           repeat split; [apply F0 | apply F1 | apply F3]; lia.
        -- right; right; right.
           repeat split; [apply F0 | apply F1 | apply F2]; assumption.
Qed.

Lemma display_settings_frame_witness :
  let b := mkButtons true true false false false in
  let m := power_on in
  let s := setting m in
  let m' := fst (display b m) in
  let s' := setting m' in
  (net_step b = 0 -> s' = s) /\
  (cursor m' <> 0 -> buzzer_en s' = buzzer_en s) /\
  (cursor m' <> 1 -> medium_threshold s' = medium_threshold s) /\
  (cursor m' <> 2 -> high_threshold s' = high_threshold s) /\
  (cursor m' <> 3 -> gradient_led_display s' = gradient_led_display s) /\
  (ok_isClick b = false -> cursor m' = cursor m) /\
  ((medium_threshold s' = medium_threshold s /\
    high_threshold s' = high_threshold s /\
    gradient_led_display s' = gradient_led_display s) \/
   (buzzer_en s' = buzzer_en s /\
    high_threshold s' = high_threshold s /\
    gradient_led_display s' = gradient_led_display s) \/
   (buzzer_en s' = buzzer_en s /\
    medium_threshold s' = medium_threshold s /\
    gradient_led_display s' = gradient_led_display s) \/
   (buzzer_en s' = buzzer_en s /\
    medium_threshold s' = medium_threshold s /\
    high_threshold s' = high_threshold s)).
Proof.
  exact (display_settings_frame (mkButtons true true false false false)
                                power_on).
Defined.

(** A confirm click and an increase click in the same call: the cursor
    moves from 0 to 1 first, so the edit lands on [medium_threshold]. *)
Example confirm_then_edit :
  fst (display (mkButtons true true false false false) power_on)
  = mkMachine 0 Ok (mkSetting false 1010 2000 false) CRGB_Black 0 1 Ok.
Proof. reflexivity. Qed.

(** The cursor stays on one of the four rows, and wraps from 3 to 0. *)
Lemma next_cursor_range (b : Buttons) (c : Z) :
  0 <= c < 4 -> 0 <= next_cursor b c < 4.
Proof.
  intros Hc. unfold next_cursor. destruct (ok_isClick b); [|exact Hc].
  assert (c = 0 \/ c = 1 \/ c = 2 \/ c = 3) as [-> | [-> | [-> | ->]]]
    by lia; vm_compute; split; congruence.
Qed.

Example next_cursor_wraps :
  next_cursor (mkButtons true false false false false) 3 = 0.
Proof. reflexivity. Qed.

(** ** Redrawing *)

(** C4 does not hold of the sketch: [update_flag] starts at 1 in every
    call, so the screen is redrawn in every loop iteration.  Here two idle
    iterations follow power-on (gate shut, no button event): in the second
    one the state is the one [display] saw last, the settings and the
    cursor are untouched, and the full render is issued all the same. *)
Theorem idle_iteration_still_renders :
  let idle := mkInputs 0 0 no_buttons 0 in
  let m1 := fst (task_iteration idle power_on) in
  let m2 := fst (task_iteration idle m1) in
  old_state m1 = state m1 /\
  state m2 = state m1 /\ setting m2 = setting m1 /\
  cursor m2 = cursor m1 /\
  net_step no_buttons = 0 /\
  snd (task_iteration idle m1)
  = render Ok 0 default_setting ++ [digitalWrite BUZZER_PIN LOW] /\
  snd (display no_buttons m1) <> [].
Proof.
  repeat split. discriminate.
Qed.

(** * Further properties *)

(** ** The loop body, taken apart *)

Lemma task_iteration_fst (i : Inputs) (m : Machine) :
  fst (task_iteration i m)
  = fst (display (buttons i)
                 (fst (updateState (millis_update i) (sample i) m))).
Proof.
  unfold task_iteration.
  destruct (updateState _ _ m) as [m1 e1]. cbn [fst snd].
  destruct (display (buttons i) m1) as [m2 e2]. reflexivity.
Qed.


Lemma task_run_cons (i : Inputs) (ins : list Inputs) (m : Machine) :
  fst (task_run (i :: ins) m) = fst (task_run ins (fst (task_iteration i m))).
Proof.
  cbn [task_run].
  destruct (task_iteration i m) as [m1 e1]. cbn [fst].
  destruct (task_run ins m1) as [m2 e2]. reflexivity.
Qed.

(** An invariant of one iteration that holds at the start holds after any
    run. *)
Lemma task_run_invariant (P : Machine -> Prop) :
  (forall (i : Inputs) (m : Machine), P m -> P (fst (task_iteration i m))) ->
  forall (ins : list Inputs) (m : Machine), P m -> P (fst (task_run ins m)).
Proof.
  intros Hstep ins. induction ins as [| i ins IH]; intros m Hm; [exact Hm|].
  rewrite task_run_cons. apply IH, Hstep, Hm.
Qed.

Lemma updateState_value (t a : Z) (m : Machine) :
  value (fst (updateState t a m)) = value m \/
  value (fst (updateState t a m)) = low_pass (value m) (to_uint16 a).
Proof.
  destruct (Z_lt_le_dec 5 (to_uint32 (t - timer m))) as [O | C].
  - right. rewrite updateState_open by exact O. reflexivity.
  - left. rewrite updateState_shut by exact C. reflexivity.
Qed.

Lemma display_value (b : Buttons) (m : Machine) :
  value (fst (display b m)) = value m.
Proof. rewrite display_machine. reflexivity. Qed.

(** ** More on the filter *)

Lemma low_pass_hull (lo hi s r : Z) :
  0 <= lo -> hi < 2 ^ 16 -> lo <= s <= hi -> lo <= r <= hi ->
  lo <= low_pass s r <= hi.
Proof.
  intros Hlo Hhi Hs Hr.
  rewrite low_pass_exact by (unfold is_uint16; lia).
  destruct (quot10_bounds (r - s)) as [Hp Hn].
  destruct (Z_le_gt_dec s r);
    [specialize (Hp ltac:(lia)) | specialize (Hn ltac:(lia))]; lia.
Qed.

(** X1: over any run of the loop, whatever the clock and the buttons do,
    the smoothed value stays inside any 16-bit interval that holds the
    value it started from and every sample read. *)
Theorem task_run_value_hull (lo hi : Z) (ins : list Inputs) (m : Machine) :
  0 <= lo -> hi < 2 ^ 16 ->
  lo <= value m <= hi ->
  Forall (fun i => lo <= sample i <= hi) ins ->
  lo <= value (fst (task_run ins m)) <= hi.
Proof.
  intros Hlo Hhi. revert m.
  induction ins as [| i ins IH]; intros m Hm Hall; [exact Hm|].
  inversion Hall as [| ? ? Hi Hrest]; subst.
  rewrite task_run_cons. apply IH; [|exact Hrest].
  rewrite task_iteration_fst, display_value.
  destruct (updateState_value (millis_update i) (sample i) m) as [E | E];
    rewrite E; [exact Hm|].
  apply low_pass_hull; try assumption.
  rewrite to_uint16_id by (unfold is_uint16; lia). exact Hi.
Qed.

Lemma task_run_value_hull_witness :
  let ins := [mkInputs 6 4095 no_buttons 6; mkInputs 7 0 no_buttons 7;
              mkInputs 8 3000 no_buttons 8] in
  0 <= value (fst (task_run ins power_on)) <= 4095.
Proof.
  apply (task_run_value_hull 0 4095
           [mkInputs 6 4095 no_buttons 6; mkInputs 7 0 no_buttons 7;
            mkInputs 8 3000 no_buttons 8] power_on).
  - lia.
  - lia.
  - simpl. lia.
  - repeat constructor; simpl; lia.
Defined.

(** One update never moves the smoothed value away from the sample, moves
    it closer when they are ten or more apart, and leaves it alone when
    they are nine or less apart. *)
Lemma low_pass_distance (s r : Z) :
  is_uint16 s -> is_uint16 r ->
  Z.abs (r - low_pass s r) <= Z.abs (r - s) /\
  (10 <= Z.abs (r - s) -> Z.abs (r - low_pass s r) < Z.abs (r - s)) /\
  (Z.abs (r - s) <= 9 -> low_pass s r = s).
Proof.
  intros Hs Hr. rewrite low_pass_exact by assumption.
  pose proof (Z.quot_rem' (r - s) 10) as E.
  destruct (Z_le_gt_dec s r).
  - pose proof (Z.rem_bound_pos (r - s) 10 ltac:(lia) eq_refl). lia.
  - pose proof (Z.rem_bound_pos_neg (r - s) 10 eq_refl ltac:(lia)). lia.
Qed.

(** X2: the filter rests exactly on the values within nine of the sample:
    a smoothed value is left unchanged by an update if and only if it
    differs from the sample by at most 9. *)
Theorem low_pass_rest_iff (s r : Z) :
  is_uint16 s -> is_uint16 r ->
  (low_pass s r = s <-> Z.abs (r - s) <= 9).
Proof.
  intros Hs Hr.
  destruct (low_pass_distance s r Hs Hr) as [_ [Hfar Hnear]].
  split; [|exact Hnear].
  intros E. rewrite E in Hfar. lia.
Qed.

Lemma low_pass_rest_iff_witness :
  low_pass 509 500 = 509 <-> Z.abs (500 - 509) <= 9.
Proof. apply (low_pass_rest_iff 509 500); unfold is_uint16; lia. Defined.

(** X3: the filter preserves order in both arguments: a larger previous
    value, or a larger sample, never gives a smaller result. *)
Theorem low_pass_monotone (s1 s2 r1 r2 : Z) :
  is_uint16 s1 -> is_uint16 s2 -> is_uint16 r1 -> is_uint16 r2 ->
  s1 <= s2 -> r1 <= r2 ->
  low_pass s1 r1 <= low_pass s2 r2.
Proof.
  intros H1 H2 H3 H4 Hs Hr.
  rewrite !low_pass_exact by assumption.
  pose proof (Z.quot_rem' (r1 - s1) 10) as E1.
  pose proof (Z.quot_rem' (r2 - s2) 10) as E2.
  destruct (Z_le_gt_dec s1 r1); destruct (Z_le_gt_dec s2 r2).
  - pose proof (Z.rem_bound_pos (r1 - s1) 10 ltac:(lia) eq_refl).
    pose proof (Z.rem_bound_pos (r2 - s2) 10 ltac:(lia) eq_refl). lia.
  - pose proof (Z.rem_bound_pos (r1 - s1) 10 ltac:(lia) eq_refl).
    pose proof (Z.rem_bound_pos_neg (r2 - s2) 10 eq_refl ltac:(lia)). lia.
  - pose proof (Z.rem_bound_pos_neg (r1 - s1) 10 eq_refl ltac:(lia)).
    pose proof (Z.rem_bound_pos (r2 - s2) 10 ltac:(lia) eq_refl). lia.
  - pose proof (Z.rem_bound_pos_neg (r1 - s1) 10 eq_refl ltac:(lia)).
    pose proof (Z.rem_bound_pos_neg (r2 - s2) 10 eq_refl ltac:(lia)). lia.
Qed.

Lemma low_pass_monotone_witness : low_pass 100 200 <= low_pass 101 200.
Proof.
  apply (low_pass_monotone 100 101 200 200); unfold is_uint16; lia.
Defined.

Lemma low_pass_toward (s r : Z) :
  is_uint16 s -> is_uint16 r ->
  (s <= r -> s <= low_pass s r <= r) /\ (r <= s -> r <= low_pass s r <= s).
Proof.
  intros Hs Hr. unfold is_uint16 in *.
  split; intros Hle; apply low_pass_hull; lia.
Qed.

(** [n] updates with the same sample [r]: the distance to [r] shrinks by at
    least one per update until it is nine or less, and the value stays on
    its side of [r]. *)
Lemma low_pass_iter (r : Z) (n : nat) (s : Z) :
  is_uint16 s -> is_uint16 r ->
  let s' := Nat.iter n (fun x => low_pass x r) s in
  is_uint16 s' /\
  Z.abs (r - s') <= Z.max 9 (Z.abs (r - s) - Z.of_nat n) /\
  (s <= r -> s <= s' <= r) /\ (r <= s -> r <= s' <= s).
Proof.
  intros Hs Hr. induction n as [| n IH].
  - simpl. repeat split; try apply Hs; lia.
  - cbn zeta in *. rewrite Nat.iter_succ.
    set (x := Nat.iter n (fun x => low_pass x r) s) in *.
    destruct IH as [Hx [Hd [Hup Hdown]]].
    destruct (low_pass_distance x r Hx Hr) as [Hle [Hfar _]].
    destruct (low_pass_toward x r Hx Hr) as [Tup Tdown].
    split; [apply to_uint16_range|].
    split; [|split].
    + destruct (Z_lt_le_dec (Z.abs (r - x)) 10); [lia|].
      specialize (Hfar ltac:(lia)). lia.
    + intros Hle'. specialize (Hup Hle'). specialize (Tup ltac:(lia)). lia.
    + intros Hle'. specialize (Hdown Hle').
      specialize (Tdown ltac:(lia)). lia.
Qed.

(** X4: fed the same sample [r] at every filter tick, from any smoothed
    value, the filter comes to rest after at most [|r - value|] ticks: the
    value is then within 9 of [r], on the side it started from, and further
    ticks leave it unchanged. *)
Theorem filter_ticks_converges (r : Z) (m : Machine) (times : list Z) :
  is_uint16 (value m) -> is_uint16 r ->
  Forall (gate_open m) times ->
  (Z.to_nat (Z.abs (r - value m)) <= length times)%nat ->
  let m' := filter_ticks times r m in
  Z.abs (r - value m') <= 9 /\
  low_pass (value m') r = value m' /\
  (value m <= r -> value m <= value m' <= r) /\
  (r <= value m -> r <= value m' <= value m).
Proof.
  intros Hv Hr Hall Hlen m'.
  assert (value m' = Nat.iter (length times) (fun x => low_pass x r) (value m))
    as E.
  { unfold m'. rewrite filter_ticks_value by exact Hall.
    rewrite (to_uint16_id r Hr). reflexivity. }
  destruct (low_pass_iter r (length times) (value m) Hv Hr)
    as [Hx [Hd [Hup Hdown]]].
  rewrite <- E in Hx, Hd, Hup, Hdown.
  assert (Z.abs (r - value m') <= 9) as Hnear by lia.
  split; [exact Hnear|]. split; [|split; assumption].
  apply (low_pass_distance (value m') r Hx Hr). exact Hnear.
Qed.

Lemma filter_ticks_converges_witness :
  let m := mkMachine 40 Ok default_setting CRGB_Green 0 0 Ok in
  let m' := filter_ticks (repeat 6 20) 20 m in
  Z.abs (20 - value m') <= 9 /\
  low_pass (value m') 20 = value m' /\
  (value m <= 20 -> value m <= value m' <= 20) /\
  (20 <= value m -> 20 <= value m' <= value m).
Proof.
  apply (filter_ticks_converges 20
           (mkMachine 40 Ok default_setting CRGB_Green 0 0 Ok)
           (repeat 6 20)).
  - unfold is_uint16. simpl. lia.
  - unfold is_uint16. lia.
  - apply Forall_forall. intros t Hin.
    apply repeat_spec in Hin. subst t. vm_compute. reflexivity.
  - vm_compute. repeat constructor.
Defined.

(** ** The gate *)

Lemma display_frame (b : Buttons) (m : Machine) :
  let m' := fst (display b m) in
  value m' = value m /\ state m' = state m /\ leds0 m' = leds0 m /\
  timer m' = timer m /\ old_state m' = state m.
Proof.
  rewrite display_machine. cbn.
  repeat split.
  destruct (State_eqb (old_state m) (state m)) eqn:E; [|reflexivity].
  apply State_eqb_eq. exact E.
Qed.

Lemma task_iteration_timer (i : Inputs) (m : Machine) :
  timer (fst (task_iteration i m)) = timer m.
Proof.
  rewrite task_iteration_fst.
  destruct (display_frame (buttons i)
              (fst (updateState (millis_update i) (sample i) m)))
    as [_ [_ [_ [E _]]]].
  rewrite E. apply updateState_frame.
Qed.

(** X5: nothing ever assigns [timer], so the gate of [updateState] does not
    space the filter updates: after any run from power-on [timer] is still
    0, the gate is open at clock reading [t] exactly when
    [t mod 2^32 > 5], and two calls at the same such reading both run the
    filter. *)
Theorem gate_never_rate_limits (ins : list Inputs) (t a : Z) :
  let m := fst (task_run ins power_on) in
  timer m = 0 /\
  (gate_open m t <-> 5 < t mod 2 ^ 32) /\
  (5 < t mod 2 ^ 32 ->
   value (fst (updateState t a (fst (updateState t a m))))
   = low_pass (low_pass (value m) (to_uint16 a)) (to_uint16 a)).
Proof.
  intros m.
  assert (timer m = 0) as Ht.
  { unfold m. apply (task_run_invariant (fun x => timer x = 0));
      [|reflexivity].
    intros i x Hx. rewrite task_iteration_timer. exact Hx. }
  assert (forall x : Machine, timer x = 0 ->
            (gate_open x t <-> 5 < t mod 2 ^ 32)) as Hg.
  { intros x Hx. unfold gate_open, to_uint32.
    rewrite Hx, Z.sub_0_r. reflexivity. }
  split; [exact Ht|]. split; [apply Hg; exact Ht|].
  intros Hopen.
  assert (gate_open m t) as O1 by (apply Hg; assumption).
  rewrite (updateState_open t a m O1).
  cbn [fst].
  rewrite updateState_open by (apply Hg; [exact Ht | exact Hopen]).
  reflexivity.
Qed.

(** ** Ranges kept by the loop *)

Lemma apply_step_wf (c d : Z) (s : Setting) :
  Setting_wf s -> Setting_wf (apply_step c d s).
Proof.
  intros [Hm Hh]. unfold apply_step, Setting_wf.
  destruct (c =? 0); [split; assumption|].
  destruct (c =? 1); [split; [apply to_uint16_range | exact Hh]|].
  destruct (c =? 2); [split; [exact Hm | apply to_uint16_range]|].
  destruct (c =? 3); split; assumption.
Qed.

Lemma updateState_wf (t a : Z) (m : Machine) :
  well_formed m -> well_formed (fst (updateState t a m)).
Proof.
  intros [Hv [Hs Hc]].
  destruct (updateState_frame t a m) as [Es [_ [Ec _]]].
  unfold well_formed. rewrite Es, Ec.
  split; [|split; assumption].
  destruct (updateState_value t a m) as [E | E]; rewrite E;
    [exact Hv | apply to_uint16_range].
Qed.

Lemma display_wf (b : Buttons) (m : Machine) :
  well_formed m -> well_formed (fst (display b m)).
Proof.
  intros [Hv [Hs Hc]]. rewrite display_machine.
  unfold well_formed. cbn [value setting cursor].
  split; [exact Hv|]. split; [|apply next_cursor_range; exact Hc].
  destruct (net_step b =? 0); [exact Hs | apply apply_step_wf; exact Hs].
Qed.

(** X6: the loop keeps its variables in range for every input: after any
    run from a state in which the smoothed value and both thresholds are
    16-bit and the cursor is one of 0..3, they still are, also across
    every wrap-around of the thresholds. *)
Theorem task_run_well_formed (ins : list Inputs) (m : Machine) :
  is_uint16 (value m) -> Setting_wf (setting m) -> 0 <= cursor m < 4 ->
  let m' := fst (task_run ins m) in
  is_uint16 (value m') /\ Setting_wf (setting m') /\ 0 <= cursor m' < 4.
Proof.
  intros Hv Hs Hc m'. unfold m'.
  apply (task_run_invariant well_formed).
  - intros i x Hx. rewrite task_iteration_fst.
    apply display_wf, updateState_wf, Hx.
  - unfold well_formed. auto.
Qed.

Lemma task_run_well_formed_witness :
  let ins := [mkInputs 6 70000 (mkButtons true false false true true) 6;
              mkInputs 7 123 (mkButtons true true false false false) 7] in
  let m' := fst (task_run ins power_on) in
  is_uint16 (value m') /\ Setting_wf (setting m') /\ 0 <= cursor m' < 4.
Proof.
  apply (task_run_well_formed
           [mkInputs 6 70000 (mkButtons true false false true true) 6;
            mkInputs 7 123 (mkButtons true true false false false) 7]
           power_on).
  - unfold is_uint16. simpl. lia.
  - unfold Setting_wf, is_uint16. simpl. lia.
  - simpl. lia.
Defined.

(** ** The cursor *)

Lemma next_cursor_mod (b : Buttons) (c : Z) :
  0 <= c < 4 ->
  next_cursor b c = if ok_isClick b then (c + 1) mod 4 else c.
Proof.
  intros Hc. unfold next_cursor. destruct (ok_isClick b); [|reflexivity].
  assert (c = 0 \/ c = 1 \/ c = 2 \/ c = 3) as [-> | [-> | [-> | ->]]]
    by lia; reflexivity.
Qed.

Lemma display_confirm_only (m : Machine) :
  fst (display (mkButtons true false false false false) m)
  = mkMachine (value m) (state m) (setting m) (leds0 m) (timer m)
              (to_int8 (Z.rem (cursor m + 1) 4)) (state m).
Proof.
  destruct (display_frame (mkButtons true false false false false) m)
    as [_ [_ [_ [_ Eo]]]].
  rewrite display_machine in *. cbn in Eo. cbn.
  rewrite Eo. reflexivity.
Qed.

(** X7: with the cursor on one of the four rows, a confirm click moves it
    to [(cursor + 1) mod 4] (from 3 back to 0) and no confirm click leaves
    it where it is; four calls of [display] with a confirm click and
    nothing else bring it back to the same row with the settings
    untouched. *)
Theorem cursor_cycles (b : Buttons) (m : Machine) :
  0 <= cursor m < 4 ->
  cursor (fst (display b m))
  = (if ok_isClick b then (cursor m + 1) mod 4 else cursor m) /\
  let m4 := display_run (repeat (mkButtons true false false false false) 4)
                        m in
  cursor m4 = cursor m /\ setting m4 = setting m.
Proof.
  intros Hc. split.
  - rewrite display_machine. cbn [cursor].
    apply next_cursor_mod. exact Hc.
  - cbn [repeat display_run]. rewrite !display_confirm_only.
    cbn [cursor setting]. split; [|reflexivity].
    assert (cursor m = 0 \/ cursor m = 1 \/ cursor m = 2 \/ cursor m = 3)
      as [-> | [-> | [-> | ->]]] by lia; reflexivity.
Qed.

Lemma cursor_cycles_witness :
  let b := mkButtons true false false false false in
  let m := mkMachine 0 Ok default_setting CRGB_Green 0 3 Ok in
  cursor (fst (display b m))
  = (if ok_isClick b then (cursor m + 1) mod 4 else cursor m) /\
  let m4 := display_run (repeat (mkButtons true false false false false) 4)
                        m in
  cursor m4 = cursor m /\ setting m4 = setting m.
Proof.
  apply (cursor_cycles (mkButtons true false false false false)
           (mkMachine 0 Ok default_setting CRGB_Green 0 3 Ok)).
  simpl. lia.
Defined.

(** ** More on the classifier *)

(** X8: whatever the two thresholds are, in order or crossed, the severity
    never drops when the smoothed value grows. *)
Theorem classify_monotone (v1 v2 : Z) (s : Setting) :
  v1 <= v2 ->
  State_rank (fst (classify v1 s)) <= State_rank (fst (classify v2 s)).
Proof.
  intros Hv.
  destruct (classify_cases v1 s) as [[A1 E1] | [[A1 E1] | [A1 [B1 E1]]]];
    destruct (classify_cases v2 s) as [[A2 E2] | [[A2 E2] | [A2 [B2 E2]]]];
    rewrite E1, E2; simpl; lia.
Qed.

Lemma classify_monotone_witness :
  State_rank (fst (classify 900 default_setting))
  <= State_rank (fst (classify 2100 default_setting)).
Proof. apply (classify_monotone 900 2100 default_setting). lia. Defined.

(** X9: the state [Control] exists for some smoothed value exactly when
    [medium_threshold < high_threshold]; with the thresholds equal or
    crossed the classifier only ever answers [Ok] or [Critical], switching
    at [medium_threshold]. *)
Theorem control_reachable_iff (s : Setting) :
  ((exists v : Z, fst (classify v s) = Control) <->
   medium_threshold s < high_threshold s) /\
  (high_threshold s <= medium_threshold s ->
   forall v : Z,
     classify v s = if v <? medium_threshold s then (Ok, CRGB_Green)
                    else (Critical, CRGB_Red)).
Proof.
  split; [split|].
  - intros [v Hv].
    destruct (classify_cases v s) as [[A E] | [[A E] | [A [B E]]]];
      [rewrite E in Hv; discriminate | lia | rewrite E in Hv; discriminate].
  - intros H. exists (medium_threshold s).
    destruct (classify_cases (medium_threshold s) s)
      as [[A E] | [[A E] | [A [B E]]]]; [lia | exact E | lia].
  - intros H v. unfold classify.
    destruct (Z.ltb_spec v (medium_threshold s)); [reflexivity|].
    destruct (Z.ltb_spec v (high_threshold s)); [lia | reflexivity].
Qed.

Lemma control_reachable_iff_witness :
  let s := mkSetting false 2000 1000 false in
  ((exists v : Z, fst (classify v s) = Control) <->
   medium_threshold s < high_threshold s) /\
  (high_threshold s <= medium_threshold s ->
   forall v : Z,
     classify v s = if v <? medium_threshold s then (Ok, CRGB_Green)
                    else (Critical, CRGB_Red)).
Proof. exact (control_reachable_iff (mkSetting false 2000 1000 false)). Defined.

(** ** More on the menu *)

Lemma display_setting (b : Buttons) (m : Machine) :
  setting (fst (display b m))
  = if net_step b =? 0 then setting m
    else apply_step (cursor (fst (display b m))) (net_step b) (setting m).
Proof. rewrite display_machine. reflexivity. Qed.



Lemma net_step_zero_iff (b : Buttons) :
  net_step b = 0 <->
  right_isClick b = left_isClick b /\ right_isStep b = left_isStep b.
Proof.
  destruct b as [o rc rs lc ls].
  destruct rc, rs, lc, ls; vm_compute; split;
    solve [auto | intros H; discriminate H | intros [H1 H2]; discriminate].
Qed.

(** X11: the net delta is zero exactly when the two buttons report the
    same clicks and the same holds; events that cancel this way leave all
    four settings as they were, like no event at all. *)
Theorem opposite_events_cancel (b : Buttons) (m : Machine) :
  (net_step b = 0 <->
   right_isClick b = left_isClick b /\ right_isStep b = left_isStep b) /\
  (right_isClick b = left_isClick b -> right_isStep b = left_isStep b ->
   setting (fst (display b m)) = setting m).
Proof.
  split; [apply net_step_zero_iff|].
  intros Hc Hs. rewrite display_setting.
  replace (net_step b) with 0; [reflexivity|].
  symmetry. apply net_step_zero_iff. auto.
Qed.

Lemma opposite_events_cancel_witness :
  let b := mkButtons false true true true true in
  let m := mkMachine 0 Ok default_setting CRGB_Green 0 1 Ok in
  (net_step b = 0 <->
   right_isClick b = left_isClick b /\ right_isStep b = left_isStep b) /\
  (right_isClick b = left_isClick b -> right_isStep b = left_isStep b ->
   setting (fst (display b m)) = setting m).
Proof.
  exact (opposite_events_cancel
           (mkButtons false true true true true)
           (mkMachine 0 Ok default_setting CRGB_Green 0 1 Ok)).
Defined.

Lemma net_step_mirror (b : Buttons) : net_step (mirror b) = - net_step b.
Proof.
  destruct b as [o rc rs lc ls].
  destruct rc, rs, lc, ls; reflexivity.
Qed.

Lemma to_uint16_undo (x d : Z) :
  is_uint16 x -> to_uint16 (to_uint16 (x + d) + - d) = x.
Proof.
  intros Hx. unfold to_uint16.
  rewrite Z.add_mod_idemp_l by discriminate.
  replace (x + d + - d) with x by lia.
  apply Z.mod_small. exact Hx.
Qed.

Lemma apply_step_undo (c d : Z) (s : Setting) :
  Setting_wf s -> c = 1 \/ c = 2 ->
  apply_step c (- d) (apply_step c d s) = s.
Proof.
  intros [Hm Hh] [-> | ->]; destruct s as [e md hi g];
    unfold apply_step; cbn in *;
    rewrite to_uint16_undo by assumption; reflexivity.
Qed.

(** X12: on the two threshold rows an edit is undone by the opposite edit:
    the same events on the other button in the next call restore the
    threshold exactly, also when the first edit wrapped around 0 or
    65535. *)
Theorem edit_then_mirror_restores (b : Buttons) (m : Machine) :
  Setting_wf (setting m) ->
  ok_isClick b = false ->
  cursor m = 1 \/ cursor m = 2 ->
  setting (fst (display (mirror b) (fst (display b m)))) = setting m.
Proof.
  intros Hwf Hok Hc.
  assert (cursor (fst (display b m)) = cursor m) as Ec.
  { rewrite display_machine. cbn [cursor].
    unfold next_cursor. rewrite Hok. reflexivity. }
  assert (cursor (fst (display (mirror b) (fst (display b m)))) = cursor m)
    as Ec'.
  { rewrite (display_machine (mirror b)). cbn [cursor]. exact Ec. }
  rewrite (display_setting (mirror b)), Ec', net_step_mirror.
  rewrite (display_setting b), Ec.
  destruct (Z.eqb_spec (net_step b) 0) as [Z0 | NZ].
  - rewrite Z0. reflexivity.
  - destruct (Z.eqb_spec (- net_step b) 0); [lia|].
    apply apply_step_undo; assumption.
Qed.

Lemma edit_then_mirror_restores_witness :
  let b := mkButtons false false false false true in
  let m := mkMachine 0 Ok (mkSetting false 30 2000 false)
                     CRGB_Green 0 1 Ok in
  setting (fst (display (mirror b) (fst (display b m)))) = setting m.
Proof.
  apply (edit_then_mirror_restores
           (mkButtons false false false false true)
           (mkMachine 0 Ok (mkSetting false 30 2000 false)
                      CRGB_Green 0 1 Ok)).
  - unfold Setting_wf, is_uint16. simpl. lia.
  - reflexivity.
  - left. reflexivity.
Defined.

(** ** More on the buzzer *)

Lemma buzzerHandler_control (now : Z) (m : Machine) :
  buzzer_en (setting m) = true -> state m = Control -> is_uint32 now ->
  buzzerHandler now m
  = [digitalWrite BUZZER_PIN (Level_of_bool (now mod 500 <? 50))].
Proof.
  intros En St Hn. unfold buzzerHandler.
  rewrite En, St, (to_uint32_id now Hn). reflexivity.
Qed.

Lemma buzzerHandler_critical (now : Z) (m : Machine) :
  buzzer_en (setting m) = true -> state m = Critical -> is_uint32 now ->
  buzzerHandler now m
  = [digitalWrite BUZZER_PIN (Level_of_bool (now mod 100 <? 50))].
Proof.
  intros En St Hn. unfold buzzerHandler.
  rewrite En, St, (to_uint32_id now Hn). reflexivity.
Qed.

(** X13: while the clock has not wrapped, the buzzer waveform repeats with
    period 500 ms in state [Control] and 100 ms in state [Critical]: the
    level written depends only on the clock, not on when the state was
    entered. *)
Theorem buzzer_periodic (now : Z) (m : Machine) :
  buzzer_en (setting m) = true ->
  is_uint32 now ->
  (state m = Control -> is_uint32 (now + 500) ->
   buzzerHandler (now + 500) m = buzzerHandler now m) /\
  (state m = Critical -> is_uint32 (now + 100) ->
   buzzerHandler (now + 100) m = buzzerHandler now m).
Proof.
  intros En Hn. split; intros St Hn'.
  - rewrite !buzzerHandler_control by assumption.
    replace (now + 500) with (now + 1 * 500) by lia.
    rewrite Z.mod_add by discriminate. reflexivity.
  - rewrite !buzzerHandler_critical by assumption.
    replace (now + 100) with (now + 1 * 100) by lia.
    rewrite Z.mod_add by discriminate. reflexivity.
Qed.

Lemma buzzer_periodic_witness :
  let m := mkMachine 1500 Control (mkSetting true 1000 2000 false)
                     CRGB_Yellow 0 0 Control in
  (state m = Control -> is_uint32 (1030 + 500) ->
   buzzerHandler (1030 + 500) m = buzzerHandler 1030 m) /\
  (state m = Critical -> is_uint32 (1030 + 100) ->
   buzzerHandler (1030 + 100) m = buzzerHandler 1030 m).
Proof.
  apply (buzzer_periodic 1030
           (mkMachine 1500 Control (mkSetting true 1000 2000 false)
                      CRGB_Yellow 0 0 Control)).
  - reflexivity.
  - unfold is_uint32. lia.
Defined.

Lemma count_from_ext (p q : Z -> bool) (n : nat) :
  forall start : Z,
    (forall t : Z, start <= t < start + Z.of_nat n -> p t = q t) ->
    count_from p start n = count_from q start n.
Proof.
  induction n as [| n IH]; intros start H; [reflexivity|].
  cbn [count_from]. rewrite (H start) by lia.
  rewrite (IH (start + 1)); [reflexivity|].
  intros t Ht. apply H. lia.
Qed.

Lemma count_from_snoc (p : Z -> bool) (n : nat) :
  forall start : Z,
    count_from p start (S n)
    = (count_from p start n
       + (if p (start + Z.of_nat n)%Z then 1 else 0))%nat.
Proof.
  induction n as [| n IH]; intros start.
  - cbn. rewrite Z.add_0_r. lia.
  - change (count_from p start (S (S n)))
      with ((if p start then 1 else 0)
            + count_from p (start + 1)%Z (S n))%nat.
    rewrite (IH (start + 1)). cbn [count_from].
    replace (start + 1 + Z.of_nat n) with (start + Z.of_nat (S n)) by lia.
    lia.
Qed.

(** Sliding a window by one over a predicate that agrees at the two ends
    keeps the count. *)
Lemma count_from_slide (p : Z -> bool) (n : nat) (start : Z) :
  p start = p (start + Z.of_nat n) ->
  count_from p (start + 1) n = count_from p start n.
Proof.
  intros E. pose proof (count_from_snoc p n start) as S1.
  cbn [count_from] in S1. rewrite <- E in S1.
  destruct (p start); lia.
Qed.

Lemma count_periodic (period : nat) (p : Z -> bool) (c : nat) :
  (forall t : Z, 0 <= t -> p (t + Z.of_nat period) = p t) ->
  count_from p 0 period = c ->
  forall k : nat, count_from p (Z.of_nat k) period = c.
Proof.
  intros Hper Hbase k. induction k as [| k IH]; [exact Hbase|].
  rewrite Nat2Z.inj_succ. unfold Z.succ.
  rewrite count_from_slide; [exact IH|].
  symmetry. apply Hper. lia.
Qed.

Lemma count_control : forall k : nat,
  count_from (fun t => t mod 500 <? 50) (Z.of_nat k) 500 = 50%nat.
Proof.
  apply count_periodic.
  - intros t _. change (Z.of_nat 500) with (1 * 500).
    rewrite Z.mod_add by discriminate. reflexivity.
  - vm_compute. reflexivity.
Qed.

Lemma count_critical : forall k : nat,
  count_from (fun t => t mod 100 <? 50) (Z.of_nat k) 100 = 50%nat.
Proof.
  apply count_periodic.
  - intros t _. change (Z.of_nat 100) with (1 * 100).
    rewrite Z.mod_add by discriminate. reflexivity.
  - vm_compute. reflexivity.
Qed.

Lemma count_from_none (p : Z -> bool) (n : nat) :
  forall start : Z,
    (forall t : Z, p t = false) -> count_from p start n = 0%nat.
Proof.
  induction n as [| n IH]; intros start H; [reflexivity|].
  cbn [count_from]. rewrite H, IH by exact H. reflexivity.
Qed.

(** X14: the level [buzzerHandler] computes, as a function of the clock:
    with the buzzer enabled, of any 500 consecutive clock readings (not
    wrapping) exactly 50 are readings at which a call writes HIGH in state
    [Control], and of any 100 consecutive readings exactly 50 in state
    [Critical], wherever the window starts: the 10 % and 50 % the comments
    of [buzzerHandler] announce.  In state [Ok] no reading gives HIGH.
    This counts readings, not time on the pin: the pin keeps the level of
    the last call, so its time HIGH also depends on when the loop calls. *)
Theorem buzzer_high_readings (m : Machine) (start : Z) :
  buzzer_en (setting m) = true ->
  0 <= start ->
  (state m = Control -> start + 500 <= 2 ^ 32 ->
   high_calls m start 500 = 50%nat) /\
  (state m = Critical -> start + 100 <= 2 ^ 32 ->
   high_calls m start 100 = 50%nat) /\
  (state m = Ok -> forall n : nat, high_calls m start n = 0%nat).
Proof.
  intros En Hs. unfold high_calls. split; [|split].
  - intros St Hend.
    rewrite (count_from_ext _ (fun t => t mod 500 <? 50)).
    + rewrite <- (Z2Nat.id start Hs). apply count_control.
    + intros t Ht. unfold buzzer_high.
      rewrite buzzerHandler_control;
        [| assumption | assumption | unfold is_uint32; lia].
      destruct (t mod 500 <? 50); reflexivity.
  - intros St Hend.
    rewrite (count_from_ext _ (fun t => t mod 100 <? 50)).
    + rewrite <- (Z2Nat.id start Hs). apply count_critical.
    + intros t Ht. unfold buzzer_high.
      rewrite buzzerHandler_critical;
        [| assumption | assumption | unfold is_uint32; lia].
      destruct (t mod 100 <? 50); reflexivity.
  - intros St n. apply count_from_none.
    intros t. unfold buzzer_high.
    rewrite buzzerHandler_quiet by (left; exact St). reflexivity.
Qed.

Lemma buzzer_high_readings_witness :
  let m := mkMachine 2500 Critical (mkSetting true 1000 2000 false)
                     CRGB_Red 0 0 Critical in
  (state m = Control -> 1234 + 500 <= 2 ^ 32 ->
   high_calls m 1234 500 = 50%nat) /\
  (state m = Critical -> 1234 + 100 <= 2 ^ 32 ->
   high_calls m 1234 100 = 50%nat) /\
  (state m = Ok -> forall n : nat, high_calls m 1234 n = 0%nat).
Proof.
  apply (buzzer_high_readings
           (mkMachine 2500 Critical (mkSetting true 1000 2000 false)
                      CRGB_Red 0 0 Critical) 1234).
  - reflexivity.
  - lia.
Defined.

(** ** One iteration as a whole *)



(** X16: in an iteration whose gate is open the state and the colour are
    those of the new smoothed value under the thresholds as they were
    before this iteration's menu edit (an edit reaches the state only with
    the next update); with the gate shut the buttons change neither the
    value, the state nor the colour; and at the end of every iteration
    [old_state] equals [state]. *)
Theorem task_iteration_classifies (i : Inputs) (m : Machine) :
  let m' := fst (task_iteration i m) in
  (5 < to_uint32 (millis_update i - timer m) ->
   value m' = low_pass (value m) (to_uint16 (sample i)) /\
   state m' = fst (classify (value m') (setting m)) /\
   leds0 m' = snd (classify (value m') (setting m))) /\
  (to_uint32 (millis_update i - timer m) <= 5 ->
   value m' = value m /\ state m' = state m /\ leds0 m' = leds0 m) /\
  old_state m' = state m'.
Proof.
  intros m'. unfold m'. rewrite task_iteration_fst.
  set (m1 := fst (updateState (millis_update i) (sample i) m)).
  destruct (display_frame (buttons i) m1) as [Ev [Es [El [_ Eo]]]].
  rewrite Ev, Es, El, Eo.
  split; [|split; [|reflexivity]].
  - intros O. unfold m1. rewrite updateState_open by exact O.
    cbn. auto.
  - intros C. unfold m1. rewrite updateState_shut by exact C.
    cbn. auto.
Qed.

Lemma task_iteration_classifies_witness :
  let i := mkInputs 6 3000 (mkButtons true true false false false) 6 in
  let m := power_on in
  let m' := fst (task_iteration i m) in
  (5 < to_uint32 (millis_update i - timer m) ->
   value m' = low_pass (value m) (to_uint16 (sample i)) /\
   state m' = fst (classify (value m') (setting m)) /\
   leds0 m' = snd (classify (value m') (setting m))) /\
  (to_uint32 (millis_update i - timer m) <= 5 ->
   value m' = value m /\ state m' = state m /\ leds0 m' = leds0 m) /\
  old_state m' = state m'.
Proof.
  exact (task_iteration_classifies
           (mkInputs 6 3000 (mkButtons true true false false false) 6)
           power_on).
Defined.

Lemma gate_never_rate_limits_witness :
  let m := fst (task_run [mkInputs 6 3000 no_buttons 6] power_on) in
  timer m = 0 /\
  (gate_open m 7 <-> 5 < 7 mod 2 ^ 32) /\
  (5 < 7 mod 2 ^ 32 ->
   value (fst (updateState 7 3000 (fst (updateState 7 3000 m))))
   = low_pass (low_pass (value m) (to_uint16 3000)) (to_uint16 3000)).
Proof.
  exact (gate_never_rate_limits [mkInputs 6 3000 no_buttons 6] 7 3000).
Defined.

